(** * Mirra SDK (Python client): a shallow embedding of [mirra/client.py]

    The client is a thin wrapper around [requests.Session]: a transport
    function [MirraSDK._request] that sends one HTTP request, parses the
    JSON envelope [{success, data, error}] and translates failures into
    [MirraError], and seven service facades whose methods each forward to
    the transport.

    Python objects that flow through the client (request bodies, query
    parameters, parsed response bodies) are modelled by [PyValue], with a
    [dict] as a finite map. Raising is modelled by the [Outcome] type; the
    mutable client object is threaded explicitly, and every call of
    [session.request] is recorded in the session's trace [sent]. *)

From stdpp Require Import gmap strings list fin_maps.
From Stdlib Require Import ZArith SpecFloat Ascii.
Local Open Scope Z_scope.
Set Warnings "-register-all".

(* ------------------------------------------------------------------ *)
(** ** Python values *)

(** The values [json.loads] can produce, which are also the values a caller
    passes as request bodies and query parameters. Python [str] is modelled
    by [string], a [dict] with [str] keys by a finite map. *)
Inductive PyValue : Type :=
| PyNone
| PyBool (b : bool)
| PyInt (n : Z)
| PyFloat (f : spec_float)
| PyStr (s : string)
| PyList (l : list PyValue)
| PyDict (d : gmap string PyValue).

(** [type(v).__name__], as it appears in the message of an
    [AttributeError]. *)
Definition type_name (v : PyValue) : string :=
  match v with
  | PyNone => "NoneType"
  | PyBool _ => "bool"
  | PyInt _ => "int"
  | PyFloat _ => "float"
  | PyStr _ => "str"
  | PyList _ => "list"
  | PyDict _ => "dict"
  end.

(** Python truthiness, which is what [not x] tests: [None], [False], a zero
    and an empty string or container are false, everything else is true. *)
Definition truthy (v : PyValue) : bool :=
  match v with
  | PyNone => false
  | PyBool b => b
  | PyInt n => negb (n =? 0)
  | PyFloat (S754_zero _) => false
  | PyFloat _ => true
  | PyStr s => negb (String.eqb s "")
  | PyList l => negb (Nat.eqb (length l) 0)
  | PyDict d => negb (Nat.eqb (size d) 0)
  end.

(** [d.get(k, dflt)]. *)
Definition dict_get (d : gmap string PyValue) (k : string) (dflt : PyValue)
  : PyValue :=
  default dflt (d !! k).

(** [d.update(items)], which is also how the display [{**d, **items}] is
    built: the items are stored into [d] one after the other. *)
Definition dict_update (d items : gmap string PyValue) : gmap string PyValue :=
  map_fold (fun k v acc => <[k := v]> acc) d items.

(** [s.rstrip(chars)]: drop every trailing character that occurs in
    [chars]. *)
Fixpoint char_in (c : ascii) (chars : string) : bool :=
  match chars with
  | EmptyString => false
  | String c' rest => Ascii.eqb c' c || char_in c rest
  end.

Fixpoint rstrip (chars : string) (s : string) : string :=
  match s with
  | EmptyString => EmptyString
  | String c rest =>
      match rstrip chars rest with
      | EmptyString => if char_in c chars then EmptyString else String c EmptyString
      | kept => String c kept
      end
  end.

(* ------------------------------------------------------------------ *)
(** ** Exceptions and outcomes *)

(** The exceptions that can leave the client. [MirraError] is the class of
    [client.py]; its attributes are [message] (the argument of
    [Exception.__init__]), [code], [status_code] and [details].
    [AttributeError] is what [x.get] raises on an object without a [get]
    attribute, [KeyError] what [d[k]] raises on a missing key. *)
Inductive PyExc : Type :=
| MirraError (message : PyValue) (code : PyValue)
             (status_code : option Z) (details : PyValue)
| AttributeError (obj_type : string) (attr : string)
| KeyError (key : string).

Inductive Outcome (A : Type) : Type :=
| Return (a : A)
| Raise (e : PyExc).
Arguments Return {A} a.
Arguments Raise {A} e.

Definition bind {A B : Type} (m : Outcome A) (k : A -> Outcome B) : Outcome B :=
  match m with
  | Return a => k a
  | Raise e => Raise e
  end.

Notation "x <- m ;; k" := (bind m (fun x => k))
  (at level 100, m at next level, right associativity).

(** [obj.get(k, default)] on an arbitrary object: only a dict has [get]. *)
Definition py_get (obj : PyValue) (k : string) (dflt : PyValue) : Outcome PyValue :=
  match obj with
  | PyDict d => Return (dict_get d k dflt)
  | _ => Raise (AttributeError (type_name obj) "get")
  end.

(** [d[k]] on a dict. *)
Definition py_getitem (d : gmap string PyValue) (k : string) : Outcome PyValue :=
  match d !! k with
  | Some v => Return v
  | None => Raise (KeyError k)
  end.

(* ------------------------------------------------------------------ *)
(** ** The [requests] library, as far as the client uses it *)

Module requests.

(** What one call of [Session.request] puts on the wire: the arguments
    [method], [url], [json=], [params=] and the session headers of that
    moment. [PyNone] for [json] or [params] means the argument was
    [None], that is, no body or no query string. *)
Record Request : Type := {
  req_method : string;
  req_url : string;
  req_json : PyValue;
  req_params : PyValue;
  req_headers : list (string * string)
}.

(** A response: its status and what [response.json()] does, [None]
    standing for the [ValueError] of a body that is not JSON. *)
Record Response : Type := {
  status_code : Z;
  json : option PyValue
}.

(** [Session.request] either returns a response or raises a
    [requests.RequestException] [e]; [text] is [str(e)]. *)
Inductive SendResult : Type :=
| Responded (response : Response)
| RequestException (text : string).

(** The installation of the library: the headers a new session starts
    with, and the network behind the session's adapter. The answer to a
    request may depend on everything the session sent before (cookies,
    pooled connections, the server's own state). *)
Record Library : Type := {
  default_headers : list (string * string);
  send : list Request -> Request -> SendResult
}.

Record Session : Type := {
  headers : list (string * string);
  adapter : list Request -> Request -> SendResult;
  sent : list Request
}.

(** [requests.Session()]. *)
Definition Session_init (lib : Library) : Session :=
  {| headers := default_headers lib; adapter := send lib; sent := [] |}.

(** [str.lower] on ASCII letters. *)
Definition lower_char (c : ascii) : ascii :=
  let n := nat_of_ascii c in
  if ((65 <=? n) && (n <=? 90))%nat then ascii_of_nat (n + 32) else c.

Fixpoint lower (s : string) : string :=
  match s with
  | EmptyString => EmptyString
  | String c rest => String (lower_char c) (lower rest)
  end.

(** [CaseInsensitiveDict.__setitem__]: keys are compared in lower case,
    the last spelling of the key is the one kept. *)
Fixpoint headers_set (h : list (string * string)) (k v : string)
  : list (string * string) :=
  match h with
  | [] => [(k, v)]
  | (k', v') :: rest =>
      if String.eqb (lower k') (lower k) then (k, v) :: rest
      else (k', v') :: headers_set rest k v
  end.

(** [session.headers.update(items)]. *)
Definition headers_update (h items : list (string * string))
  : list (string * string) :=
  fold_left (fun acc kv => headers_set acc (fst kv) (snd kv)) items h.

(** [CaseInsensitiveDict.get(k)]: the value stored under [k] in any
    spelling, [None] when there is none. *)
Fixpoint headers_get (h : list (string * string)) (k : string) : option string :=
  match h with
  | [] => None
  | (k', v') :: rest =>
      if String.eqb (lower k') (lower k) then Some v' else headers_get rest k
  end.

(** [session.request(method=, url=, json=, params=)]: one request goes to
    the adapter, and the session remembers that it was sent. *)
Definition Session_request (s : Session) (method url : string)
    (json_arg params : PyValue) : Session * SendResult :=
  let req := {| req_method := method; req_url := url; req_json := json_arg;
                req_params := params; req_headers := headers s |} in
  ({| headers := headers s; adapter := adapter s; sent := sent s ++ [req] |},
   adapter s (sent s) req).

End requests.

(* ------------------------------------------------------------------ *)
(** ** [class MirraSDK] *)

(** The attributes of a client object. The seven service attributes
    ([self.memory], [self.ai], ...) each hold nothing but a reference back
    to the client, so the service methods below take the client itself. *)
Record MirraSDK : Type := {
  api_key : string;
  base_url : string;
  session : requests.Session
}.

Definition default_base_url : string := "https://api.fxn.world/api/sdk/v1".

Module MirraSDK.

(** [MirraSDK.__init__(api_key, base_url=default_base_url)]. *)
Definition __init__ (lib : requests.Library) (api_key_arg : string)
    (base_url_arg : option string) : MirraSDK :=
  let base := match base_url_arg with Some b => b | None => default_base_url end in
  let s := requests.Session_init lib in
  {| api_key := api_key_arg;
     base_url := rstrip "/" base;
     session :=
       {| requests.headers :=
            requests.headers_update (requests.headers s)
              [("Content-Type", "application/json"); ("X-API-Key", api_key_arg)];
          requests.adapter := requests.adapter s;
          requests.sent := requests.sent s |} |}.

(** [MirraSDK._request(method, path, data=None, params=None)]. The result
    pairs the client after the call with what the call returns or
    raises. *)
Definition _request (self : MirraSDK) (method path : string)
    (data params : PyValue) : MirraSDK * Outcome PyValue :=
  let url := base_url self +:+ path in
  let (session', answer) :=
    requests.Session_request (session self) method url data params in
  ({| api_key := api_key self; base_url := base_url self; session := session' |},
   match answer with
   | requests.RequestException e =>
       Raise (MirraError (PyStr ("Request failed: " +:+ e)) PyNone None PyNone)
   | requests.Responded response =>
       match requests.json response with
       | None =>
           Raise (MirraError (PyStr "Invalid JSON response from API") PyNone
                    (Some (requests.status_code response)) PyNone)
       | Some result =>
           success <- py_get result "success" (PyBool false) ;;
           if negb (truthy success) || (400 <=? requests.status_code response)
           then
             error <- py_get result "error" (PyDict ∅) ;;
             message <- py_get error "message" (PyStr "Unknown error") ;;
             code <- py_get error "code" PyNone ;;
             details <- py_get error "details" PyNone ;;
             Raise (MirraError message code
                      (Some (requests.status_code response)) details)
           else py_get result "data" PyNone
       end
   end).

End MirraSDK.

(* ------------------------------------------------------------------ *)
(** ** The service facades *)

(** [f"{v}"]: a [str] is inserted as it is; any other object is inserted as
    [str(v)], which the interpreter supplies ([str_of]). *)
Definition format_value (str_of : PyValue -> string) (v : PyValue) : string :=
  match v with
  | PyStr s => s
  | _ => str_of v
  end.

Module MemoryService.
Definition create (client : MirraSDK) (entity : PyValue) :=
  MirraSDK._request client "POST" "/memory" entity PyNone.
Definition search (client : MirraSDK) (query : PyValue) :=
  MirraSDK._request client "POST" "/memory/search" query PyNone.
Definition query (client : MirraSDK) (params : PyValue) :=
  MirraSDK._request client "POST" "/memory/query" params PyNone.
Definition find_one (client : MirraSDK) (id : string) :=
  MirraSDK._request client "POST" "/memory/findOne" (PyDict {[ "id" := PyStr id ]}) PyNone.
Definition update (client : MirraSDK) (id : string) (updates : gmap string PyValue) :=
  MirraSDK._request client "POST" "/memory/update"
    (PyDict (dict_update {[ "id" := PyStr id ]} updates)) PyNone.
Definition delete (client : MirraSDK) (id : string) :=
  MirraSDK._request client "POST" "/memory/delete" (PyDict {[ "id" := PyStr id ]}) PyNone.
End MemoryService.

Module AIService.
Definition chat (client : MirraSDK) (request : PyValue) :=
  MirraSDK._request client "POST" "/ai/chat" request PyNone.
Definition decide (client : MirraSDK) (request : PyValue) :=
  MirraSDK._request client "POST" "/ai/decide" request PyNone.
Definition batch_chat (client : MirraSDK) (request : PyValue) :=
  MirraSDK._request client "POST" "/ai/batchChat" request PyNone.
End AIService.

Module AgentService.
Definition create (client : MirraSDK) (params : PyValue) :=
  MirraSDK._request client "POST" "/agents" params PyNone.
Definition get (client : MirraSDK) (id : string) :=
  MirraSDK._request client "GET" ("/agents/" +:+ id) PyNone PyNone.
Definition list (client : MirraSDK) :=
  MirraSDK._request client "GET" "/agents" PyNone PyNone.
Definition update (client : MirraSDK) (id : string) (params : PyValue) :=
  MirraSDK._request client "PATCH" ("/agents/" +:+ id) params PyNone.
Definition delete (client : MirraSDK) (id : string) :=
  MirraSDK._request client "DELETE" ("/agents/" +:+ id) PyNone PyNone.
End AgentService.

Module ScriptService.
Definition create (client : MirraSDK) (params : PyValue) :=
  MirraSDK._request client "POST" "/scripts" params PyNone.
Definition get (client : MirraSDK) (id : string) :=
  MirraSDK._request client "GET" ("/scripts/" +:+ id) PyNone PyNone.
Definition list (client : MirraSDK) :=
  MirraSDK._request client "GET" "/scripts" PyNone PyNone.
Definition update (client : MirraSDK) (id : string) (params : PyValue) :=
  MirraSDK._request client "PATCH" ("/scripts/" +:+ id) params PyNone.
Definition delete (client : MirraSDK) (id : string) :=
  MirraSDK._request client "DELETE" ("/scripts/" +:+ id) PyNone PyNone.
Definition deploy (client : MirraSDK) (id : string) :=
  MirraSDK._request client "POST" ("/scripts/" +:+ id +:+ "/deploy") PyNone PyNone.

(** [params["scriptId"]] raises [KeyError] before anything is sent when
    the key is missing. *)
Definition invoke (str_of : PyValue -> string) (client : MirraSDK)
    (params : gmap string PyValue) : MirraSDK * Outcome PyValue :=
  match py_getitem params "scriptId" with
  | Raise e => (client, Raise e)
  | Return script_id =>
      let payload := dict_get params "payload" PyNone in
      MirraSDK._request client "POST"
        ("/scripts/" +:+ format_value str_of script_id +:+ "/invoke")
        (PyDict {[ "payload" := payload ]}) PyNone
  end.
End ScriptService.

Module ResourceService.
Definition call (client : MirraSDK) (params : PyValue) :=
  MirraSDK._request client "POST" "/resources/call" params PyNone.
Definition list (client : MirraSDK) :=
  MirraSDK._request client "GET" "/resources" PyNone PyNone.
Definition get (client : MirraSDK) (id : string) :=
  MirraSDK._request client "GET" ("/resources/" +:+ id) PyNone PyNone.
End ResourceService.

Module TemplateService.
Definition list (client : MirraSDK) :=
  MirraSDK._request client "GET" "/templates" PyNone PyNone.
Definition get (client : MirraSDK) (id : string) :=
  MirraSDK._request client "GET" ("/templates/" +:+ id) PyNone PyNone.
Definition install (client : MirraSDK) (id : string) :=
  MirraSDK._request client "POST" ("/templates/" +:+ id +:+ "/install") PyNone PyNone.
End TemplateService.

Module MarketplaceService.
(** [filters] defaults to [None]. *)
Definition browse (client : MirraSDK) (filters : PyValue) :=
  MirraSDK._request client "GET" "/marketplace" PyNone filters.
Definition search (client : MirraSDK) (query : string) :=
  MirraSDK._request client "GET" "/marketplace/search" PyNone
    (PyDict {[ "q" := PyStr query ]}).
End MarketplaceService.

(** One constructor per facade method, with the method's arguments: a way to
    say "every facade method call". *)
Inductive FacadeCall : Type :=
| memory_create (entity : PyValue)
| memory_search (query : PyValue)
| memory_query (params : PyValue)
| memory_find_one (id : string)
| memory_update (id : string) (updates : gmap string PyValue)
| memory_delete (id : string)
| ai_chat (request : PyValue)
| ai_decide (request : PyValue)
| ai_batch_chat (request : PyValue)
| agents_create (params : PyValue)
| agents_get (id : string)
| agents_list
| agents_update (id : string) (params : PyValue)
| agents_delete (id : string)
| scripts_create (params : PyValue)
| scripts_get (id : string)
| scripts_list
| scripts_update (id : string) (params : PyValue)
| scripts_delete (id : string)
| scripts_deploy (id : string)
| scripts_invoke (params : gmap string PyValue)
| resources_call (params : PyValue)
| resources_list
| resources_get (id : string)
| templates_list
| templates_get (id : string)
| templates_install (id : string)
| marketplace_browse (filters : PyValue)
| marketplace_search (query : string).

Definition call (str_of : PyValue -> string) (client : MirraSDK) (c : FacadeCall)
  : MirraSDK * Outcome PyValue :=
  match c with
  | memory_create entity => MemoryService.create client entity
  | memory_search query => MemoryService.search client query
  | memory_query params => MemoryService.query client params
  | memory_find_one id => MemoryService.find_one client id
  | memory_update id updates => MemoryService.update client id updates
  | memory_delete id => MemoryService.delete client id
  | ai_chat request => AIService.chat client request
  | ai_decide request => AIService.decide client request
  | ai_batch_chat request => AIService.batch_chat client request
  | agents_create params => AgentService.create client params
  | agents_get id => AgentService.get client id
  | agents_list => AgentService.list client
  | agents_update id params => AgentService.update client id params
  | agents_delete id => AgentService.delete client id
  | scripts_create params => ScriptService.create client params
  | scripts_get id => ScriptService.get client id
  | scripts_list => ScriptService.list client
  | scripts_update id params => ScriptService.update client id params
  | scripts_delete id => ScriptService.delete client id
  | scripts_deploy id => ScriptService.deploy client id
  | scripts_invoke params => ScriptService.invoke str_of client params
  | resources_call params => ResourceService.call client params
  | resources_list => ResourceService.list client
  | resources_get id => ResourceService.get client id
  | templates_list => TemplateService.list client
  | templates_get id => TemplateService.get client id
  | templates_install id => TemplateService.install client id
  | marketplace_browse filters => MarketplaceService.browse client filters
  | marketplace_search query => MarketplaceService.search client query
  end.

(** A caller making one call after the other on the same client. *)
Fixpoint run (str_of : PyValue -> string) (client : MirraSDK)
    (calls : list FacadeCall) : MirraSDK :=
  match calls with
  | [] => client
  | c :: rest => run str_of (fst (call str_of client c)) rest
  end.

(* ------------------------------------------------------------------ *)
(** ** Vocabulary of the statements *)

(** The request [_request] hands to the session. *)
Definition wire_request (self : MirraSDK) (method path : string)
    (data params : PyValue) : requests.Request :=
  {| requests.req_method := method;
     requests.req_url := base_url self +:+ path;
     requests.req_json := data;
     requests.req_params := params;
     requests.req_headers := requests.headers (session self) |}.

(** The requests a client has sent so far, and what the network answers the
    client's next request. *)
Definition trace (self : MirraSDK) : list requests.Request :=
  requests.sent (session self).

Definition answer_to (self : MirraSDK) (req : requests.Request)
  : requests.SendResult :=
  requests.adapter (session self) (trace self) req.

(** The answers the envelope of the API allows for: a network failure, a
    body that is not JSON, or a JSON object whose ["error"], when it has
    one, is an object. *)
Definition envelope_shaped (answer : requests.SendResult) : Prop :=
  match answer with
  | requests.RequestException _ => True
  | requests.Responded response =>
      match requests.json response with
      | None => True
      | Some (PyDict body) =>
          match body !! "error" with
          | None | Some (PyDict _) => True
          | Some _ => False
          end
      | Some _ => False
      end
  end.

(** Raising nothing but [MirraError]. *)
Definition only_mirra_error (out : Outcome PyValue) : Prop :=
  match out with
  | Return _ | Raise (MirraError _ _ _ _) => True
  | Raise _ => False
  end.

(** A test double for the library: every request gets the same answer. *)
Definition mock (answer : requests.SendResult) : requests.Library :=
  {| requests.default_headers := [];
     requests.send := fun _ _ => answer |}.

Definition respond (status : Z) (body : option PyValue) : requests.SendResult :=
  requests.Responded {| requests.status_code := status; requests.json := body |}.

(** [str] for the examples, none of which formats anything but a [str]. *)
Definition str_unused (v : PyValue) : string := "".

(** [n] slashes. *)
Fixpoint slashes (n : nat) : string :=
  match n with
  | O => ""
  | S n' => String "/" (slashes n')
  end.

(** Clients and answers for the examples. *)
Definition client_with (answer : requests.SendResult) : MirraSDK :=
  MirraSDK.__init__ (mock answer) "key" None.

Definition chat_request : PyValue :=
  PyDict {[ "messages" :=
              PyList [PyDict {[ "role" := PyStr "user"; "content" := PyStr "Hello!" ]}] ]}.

Definition chat_reply : PyValue :=
  PyDict {[ "content" := PyStr "hi"; "model" := PyStr "m" ]}.

Definition envelope_ok : gmap string PyValue :=
  {[ "success" := PyBool true; "data" := chat_reply ]}.

Definition envelope_error_null : gmap string PyValue :=
  {[ "success" := PyBool false; "error" := PyNone ]}.

Definition envelope_no_success : gmap string PyValue :=
  {[ "data" := chat_reply; "error" := PyNone ]}.

Definition error_forbidden : gmap string PyValue :=
  {[ "message" := PyNone; "code" := PyStr "FORBIDDEN" ]}.

Definition envelope_forbidden : gmap string PyValue :=
  {[ "success" := PyBool true; "error" := PyDict error_forbidden ]}.

Definition envelope_data_only : gmap string PyValue :=
  {[ "data" := chat_reply ]}.

(* ------------------------------------------------------------------ *)
(** ** The transport, step by step *)

Lemma request_client self method path data params :
  fst (MirraSDK._request self method path data params)
  = {| api_key := api_key self; base_url := base_url self;
       session :=
         {| requests.headers := requests.headers (session self);
            requests.adapter := requests.adapter (session self);
            requests.sent :=
              trace self ++ [wire_request self method path data params] |} |}.
Proof. reflexivity. Qed.

Lemma request_trace self method path data params :
  trace (fst (MirraSDK._request self method path data params))
  = trace self ++ [wire_request self method path data params].
Proof. reflexivity. Qed.

Lemma trace_grows_not (l : list requests.Request) req rest :
  l = l ++ req :: rest -> False.
Proof.
  intros E. apply (f_equal length) in E.
  rewrite length_app in E. simpl in E. lia.
Qed.

(** Every facade method is one call of [_request], except that [invoke]
    stops with [KeyError] when its argument has no ["scriptId"]. *)
Lemma call_cases str_of c :
  (exists method path data params,
      forall self,
        call str_of self c = MirraSDK._request self method path data params)
  \/ (exists params,
         c = scripts_invoke params /\ params !! "scriptId" = None
         /\ forall self, call str_of self c = (self, Raise (KeyError "scriptId"))).
Proof.
  destruct c; simpl;
    try (left; eexists _, _, _, _; intros self; reflexivity).
  unfold ScriptService.invoke, py_getitem.
  destruct (params !! "scriptId") eqn:E.
  - left. eexists _, _, _, _. intros self. reflexivity.
  - right. exists params. auto.
Qed.

(** When a facade call sends a request, that request is the only one, and
    the call is [_request] on it. *)
Lemma call_sends str_of self c req rest :
  trace (fst (call str_of self c)) = trace self ++ req :: rest ->
  rest = [] /\
  exists method path data params,
    call str_of self c = MirraSDK._request self method path data params
    /\ req = wire_request self method path data params.
Proof.
  intros Hsent.
  destruct (call_cases str_of c) as [(m & p & d & q & E) | (ps & _ & _ & E)].
  - rewrite E, request_trace in Hsent.
    apply app_inv_head in Hsent. injection Hsent as <- <-.
    split; [reflexivity|]. eauto 6.
  - rewrite E in Hsent. simpl in Hsent.
    destruct (trace_grows_not _ _ _ Hsent).
Qed.

(** What [_request] does with each kind of answer. *)
Lemma request_outcome self method path data params :
  snd (MirraSDK._request self method path data params)
  = match answer_to self (wire_request self method path data params) with
    | requests.RequestException e =>
        Raise (MirraError (PyStr ("Request failed: " +:+ e)) PyNone None PyNone)
    | requests.Responded response =>
        match requests.json response with
        | None =>
            Raise (MirraError (PyStr "Invalid JSON response from API") PyNone
                     (Some (requests.status_code response)) PyNone)
        | Some result =>
            success <- py_get result "success" (PyBool false) ;;
            if negb (truthy success) || (400 <=? requests.status_code response)
            then
              error <- py_get result "error" (PyDict ∅) ;;
              message <- py_get error "message" (PyStr "Unknown error") ;;
              code <- py_get error "code" PyNone ;;
              details <- py_get error "details" PyNone ;;
              Raise (MirraError message code
                       (Some (requests.status_code response)) details)
            else py_get result "data" PyNone
        end
    end.
Proof. reflexivity. Qed.

Ltac transport_step H :=
  match type of H with
  | trace (fst (call ?s ?self ?c)) = _ =>
      let m := fresh "method" in
      let p := fresh "path" in
      let d := fresh "data" in
      let q := fresh "params" in
      let E := fresh "Ecall" in
      destruct (call_sends _ _ _ _ _ H) as (_ & m & p & d & q & E & ->);
      rewrite E, request_outcome
  end.

(* ------------------------------------------------------------------ *)
(** ** Unwrapping the envelope *)

(** C1. For every facade method: when the request the call sends is
    answered with a status below 400 and a body that parses as a JSON
    object whose ["success"] is [true], the call returns the object's
    ["data"] value as it is, and [None] when the object has no ["data"]. *)
Theorem facade_success_returns_data str_of self c req status body :
  trace (fst (call str_of self c)) = trace self ++ [req] ->
  answer_to self req = respond status (Some (PyDict body)) ->
  status < 400 ->
  body !! "success" = Some (PyBool true) ->
  snd (call str_of self c)
  = Return (match body !! "data" with Some x => x | None => PyNone end).
Proof.
  intros Hsent Hanswer Hstatus Hsuccess.
  transport_step Hsent. rewrite Hanswer. simpl.
  unfold dict_get. rewrite Hsuccess. simpl.
  destruct (Z.leb_spec 400 status) as [Hge | _]; [lia|].
  simpl. destruct (body !! "data"); reflexivity.
Qed.

Lemma facade_success_returns_data_witness :
  snd (call str_unused (client_with (respond 200 (Some (PyDict envelope_ok))))
         (ai_chat chat_request))
  = Return chat_reply.
Proof.
  apply (facade_success_returns_data str_unused
           (client_with (respond 200 (Some (PyDict envelope_ok))))
           (ai_chat chat_request)
           (wire_request (client_with (respond 200 (Some (PyDict envelope_ok))))
              "POST" "/ai/chat" chat_request PyNone)
           200 envelope_ok).
  - reflexivity.
  - reflexivity.
  - lia.
  - reflexivity.
Defined.

Lemma failure_test v status :
  truthy v = false \/ 400 <= status ->
  negb (truthy v) || (400 <=? status) = true.
Proof.
  intros [-> | H]; [reflexivity|].
  apply orb_true_iff. right. apply Z.leb_le, H.
Qed.

(** The failure branch on an envelope whose ["error"] is an object, or is
    missing: the [MirraError] is filled from that object, [{}] standing in
    for a missing one. *)
Lemma facade_api_failure str_of self c req status body err :
  trace (fst (call str_of self c)) = trace self ++ [req] ->
  answer_to self req = respond status (Some (PyDict body)) ->
  truthy (dict_get body "success" (PyBool false)) = false \/ 400 <= status ->
  dict_get body "error" (PyDict ∅) = PyDict err ->
  snd (call str_of self c)
  = Raise (MirraError (dict_get err "message" (PyStr "Unknown error"))
             (dict_get err "code" PyNone) (Some status)
             (dict_get err "details" PyNone)).
Proof.
  intros Hsent Hanswer Hfail Herr.
  transport_step Hsent. rewrite Hanswer. simpl.
  rewrite (failure_test _ _ Hfail), Herr. reflexivity.
Qed.

(** The failure branch on an envelope whose ["error"] is present and is not
    an object: [error.get] raises [AttributeError]. *)
Lemma facade_error_not_object str_of self c req status body e :
  trace (fst (call str_of self c)) = trace self ++ [req] ->
  answer_to self req = respond status (Some (PyDict body)) ->
  truthy (dict_get body "success" (PyBool false)) = false \/ 400 <= status ->
  body !! "error" = Some e ->
  (forall d, e <> PyDict d) ->
  snd (call str_of self c) = Raise (AttributeError (type_name e) "get").
Proof.
  intros Hsent Hanswer Hfail Herr Hshape.
  transport_step Hsent. rewrite Hanswer. simpl.
  rewrite (failure_test _ _ Hfail).
  unfold dict_get at 1. rewrite Herr. simpl.
  destruct e; try reflexivity. destruct (Hshape d eq_refl).
Qed.

(** C2. The envelope [{"success": false, "error": e}] with [e] anything but
    an object, JSON [null] included, does not end in a [MirraError]: the
    call raises [AttributeError]. The same happens on a status of 400 or
    more. *)
Theorem api_failure_error_not_object str_of self c req status body e :
  trace (fst (call str_of self c)) = trace self ++ [req] ->
  answer_to self req = respond status (Some (PyDict body)) ->
  body !! "success" = Some (PyBool false) \/ 400 <= status ->
  body !! "error" = Some e ->
  (forall d, e <> PyDict d) ->
  snd (call str_of self c) = Raise (AttributeError (type_name e) "get").
Proof.
  intros Hsent Hanswer Hfail Herr Hshape.
  apply (facade_error_not_object _ _ _ req status body e); auto.
  destruct Hfail as [Hs | Hs]; [left | right; exact Hs].
  unfold dict_get. rewrite Hs. reflexivity.
Qed.

(** An envelope without ["success"] is never unwrapped, whatever its status
    and its ["data"]; without ["error"] the failure is the [MirraError]
    "Unknown error". *)
Lemma facade_missing_success str_of self c req status body :
  trace (fst (call str_of self c)) = trace self ++ [req] ->
  answer_to self req = respond status (Some (PyDict body)) ->
  body !! "success" = None ->
  (exists e, snd (call str_of self c) = Raise e)
  /\ (body !! "error" = None ->
      snd (call str_of self c)
      = Raise (MirraError (PyStr "Unknown error") PyNone (Some status) PyNone)).
Proof.
  intros Hsent Hanswer Hsuccess.
  assert (Hfail : truthy (dict_get body "success" (PyBool false)) = false
                  \/ 400 <= status).
  { left. unfold dict_get. rewrite Hsuccess. reflexivity. }
  split.
  - destruct (body !! "error") as [e|] eqn:Herr.
    + destruct e;
        try (eexists;
             eapply (facade_error_not_object _ _ _ req status body);
             [exact Hsent | exact Hanswer | exact Hfail | exact Herr
             | intros ? ?; discriminate]).
      eexists. eapply (facade_api_failure _ _ _ req status body d); auto.
      unfold dict_get. rewrite Herr. reflexivity.
    + eexists. eapply (facade_api_failure _ _ _ req status body ∅); auto.
      unfold dict_get. rewrite Herr. reflexivity.
  - intros Herr.
    rewrite (facade_api_failure _ _ _ req status body ∅ Hsent Hanswer Hfail).
    + reflexivity.
    + unfold dict_get. rewrite Herr. reflexivity.
Qed.

(** C9. An envelope without ["success"] whose ["error"] is not an object,
    JSON [null] included, does not end in a [MirraError]: the call raises
    [AttributeError], also on status 200 with ["data"] present. *)
Theorem missing_success_error_not_object str_of self c req status body e :
  trace (fst (call str_of self c)) = trace self ++ [req] ->
  answer_to self req = respond status (Some (PyDict body)) ->
  body !! "success" = None ->
  body !! "error" = Some e ->
  (forall d, e <> PyDict d) ->
  snd (call str_of self c) = Raise (AttributeError (type_name e) "get").
Proof.
  intros Hsent Hanswer Hsuccess Herr Hshape.
  apply (facade_error_not_object _ _ _ req status body e); auto.
  left. unfold dict_get. rewrite Hsuccess. reflexivity.
Qed.

(** C3. Two answers after which the call raises something other than
    [MirraError]: a body that is JSON but not an object, and an envelope on
    the failure branch whose ["error"] is JSON [null]. Both end in
    [AttributeError]. *)
Theorem attribute_error_escapes str_of self c req status :
  trace (fst (call str_of self c)) = trace self ++ [req] ->
  (forall result,
      answer_to self req = respond status (Some result) ->
      (forall d, result <> PyDict d) ->
      snd (call str_of self c) = Raise (AttributeError (type_name result) "get"))
  /\ (forall body,
         answer_to self req = respond status (Some (PyDict body)) ->
         truthy (dict_get body "success" (PyBool false)) = false \/ 400 <= status ->
         body !! "error" = Some PyNone ->
         snd (call str_of self c) = Raise (AttributeError "NoneType" "get")).
Proof.
  intros Hsent. split.
  - intros result Hanswer Hshape.
    transport_step Hsent. rewrite Hanswer. simpl.
    destruct result; try reflexivity. destruct (Hshape d eq_refl).
  - intros body Hanswer Hfail Herr.
    apply (facade_error_not_object _ _ _ req status body PyNone); auto.
Qed.

(** On the answers the envelope allows for, a call that reaches the network
    returns or raises [MirraError], nothing else. *)
Lemma facade_raises_only_mirra_error str_of self c req :
  trace (fst (call str_of self c)) = trace self ++ [req] ->
  envelope_shaped (answer_to self req) ->
  only_mirra_error (snd (call str_of self c)).
Proof.
  intros Hsent Hshape.
  transport_step Hsent.
  destruct (answer_to self _) as [[status [result|]]|text]; simpl in *;
    try exact I.
  destruct result as [| | | | | |body]; try contradiction. simpl.
  destruct (negb (truthy (dict_get body "success" (PyBool false)))
            || (400 <=? status));
    [|exact I].
  unfold dict_get.
  destruct (body !! "error") as [e|]; simpl; [|exact I].
  destruct e; try contradiction. exact I.
Qed.

(** C4. For every facade method: when the request the call sends is
    answered with a body that is not JSON, the call raises the
    invalid-response [MirraError], which carries the status of the
    response. *)
Theorem facade_invalid_json str_of self c req status :
  trace (fst (call str_of self c)) = trace self ++ [req] ->
  answer_to self req = respond status None ->
  snd (call str_of self c)
  = Raise (MirraError (PyStr "Invalid JSON response from API") PyNone
             (Some status) PyNone).
Proof.
  intros Hsent Hanswer.
  transport_step Hsent. rewrite Hanswer. reflexivity.
Qed.

(** C5. For every facade method: when the request the call sends fails in
    the network, the call raises a [MirraError] with a message and without
    a status code, and that request was the call's only attempt. No call
    sends more than one request. *)
Theorem facade_network_failure str_of self c req rest text :
  trace (fst (call str_of self c)) = trace self ++ req :: rest ->
  answer_to self req = requests.RequestException text ->
  rest = []
  /\ snd (call str_of self c)
     = Raise (MirraError (PyStr ("Request failed: " +:+ text)) PyNone None PyNone)
  /\ (forall self' c',
         exists attempts,
           trace (fst (call str_of self' c')) = trace self' ++ attempts
           /\ (length attempts <= 1)%nat).
Proof.
  intros Hsent Hanswer.
  destruct (call_sends _ _ _ _ _ Hsent) as (-> & m & p & d & q & E & ->).
  split; [reflexivity|]. split.
  - rewrite E, request_outcome, Hanswer. reflexivity.
  - intros self' c'.
    destruct (call_cases str_of c') as [(m' & p' & d' & q' & E') | (ps & _ & _ & E')].
    + exists [wire_request self' m' p' d' q'].
      rewrite E', request_trace. split; [reflexivity | simpl; lia].
    + exists []. rewrite E'. simpl. rewrite app_nil_r. split; [reflexivity | simpl; lia].
Qed.

(* ------------------------------------------------------------------ *)
(** ** The failure paths on concrete answers *)

Lemma api_failure_error_not_object_witness :
  snd (call str_unused
         (client_with (respond 200 (Some (PyDict envelope_error_null))))
         (ai_chat chat_request))
  = Raise (AttributeError "NoneType" "get").
Proof.
  apply (api_failure_error_not_object str_unused
           (client_with (respond 200 (Some (PyDict envelope_error_null))))
           (ai_chat chat_request)
           (wire_request
              (client_with (respond 200 (Some (PyDict envelope_error_null))))
              "POST" "/ai/chat" chat_request PyNone)
           200 envelope_error_null PyNone).
  - reflexivity.
  - reflexivity.
  - left. reflexivity.
  - reflexivity.
  - intros d. discriminate.
Defined.

Lemma missing_success_error_not_object_witness :
  snd (call str_unused
         (client_with (respond 200 (Some (PyDict envelope_no_success))))
         (ai_chat chat_request))
  = Raise (AttributeError "NoneType" "get").
Proof.
  apply (missing_success_error_not_object str_unused
           (client_with (respond 200 (Some (PyDict envelope_no_success))))
           (ai_chat chat_request)
           (wire_request
              (client_with (respond 200 (Some (PyDict envelope_no_success))))
              "POST" "/ai/chat" chat_request PyNone)
           200 envelope_no_success PyNone).
  - reflexivity.
  - reflexivity.
  - reflexivity.
  - reflexivity.
  - intros d. discriminate.
Defined.

Lemma attribute_error_escapes_witness :
  snd (call str_unused (client_with (respond 200 (Some (PyList []))))
         agents_list)
  = Raise (AttributeError "list" "get")
  /\ snd (call str_unused
            (client_with (respond 500 (Some (PyDict envelope_error_null))))
            agents_list)
     = Raise (AttributeError "NoneType" "get").
Proof.
  split.
  - apply (proj1 (attribute_error_escapes str_unused
                    (client_with (respond 200 (Some (PyList []))))
                    agents_list
                    (wire_request (client_with (respond 200 (Some (PyList []))))
                       "GET" "/agents" PyNone PyNone)
                    200 eq_refl) (PyList [])).
    + reflexivity.
    + intros d. discriminate.
  - apply (proj2 (attribute_error_escapes str_unused
                    (client_with (respond 500 (Some (PyDict envelope_error_null))))
                    agents_list
                    (wire_request
                       (client_with (respond 500 (Some (PyDict envelope_error_null))))
                       "GET" "/agents" PyNone PyNone)
                    500 eq_refl) envelope_error_null).
    + reflexivity.
    + left. reflexivity.
    + reflexivity.
Defined.

Lemma facade_invalid_json_witness :
  snd (call str_unused (client_with (respond 404 None)) (agents_get "a1"))
  = Raise (MirraError (PyStr "Invalid JSON response from API") PyNone
             (Some 404) PyNone).
Proof.
  apply (facade_invalid_json str_unused (client_with (respond 404 None))
           (agents_get "a1")
           (wire_request (client_with (respond 404 None))
              "GET" "/agents/a1" PyNone PyNone)
           404).
  - reflexivity.
  - reflexivity.
Defined.

Lemma facade_network_failure_witness :
  snd (call str_unused
         (client_with (requests.RequestException "connection refused"))
         agents_list)
  = Raise (MirraError (PyStr "Request failed: connection refused")
             PyNone None PyNone).
Proof.
  apply (proj1 (proj2 (facade_network_failure str_unused
           (client_with (requests.RequestException "connection refused"))
           agents_list
           (wire_request
              (client_with (requests.RequestException "connection refused"))
              "GET" "/agents" PyNone PyNone)
           [] "connection refused" eq_refl eq_refl))).
Defined.

(* ------------------------------------------------------------------ *)
(** ** The base URL *)

Lemma char_in_slash c : char_in c "/" = true -> c = "/"%char.
Proof.
  simpl. rewrite orb_false_r. intros H.
  symmetry. apply Ascii.eqb_eq, H.
Qed.

(** What [rstrip] removes is a run of slashes. *)
Lemma rstrip_decompose s : exists n, s = rstrip "/" s +:+ slashes n.
Proof.
  induction s as [|c rest [n IH]].
  - exists O. reflexivity.
  - cbn [rstrip]. destruct (rstrip "/" rest) as [|a kept] eqn:E.
    + destruct (char_in c "/") eqn:Hc.
      * apply char_in_slash in Hc. subst c.
        exists (S n). rewrite IH. reflexivity.
      * exists n. rewrite IH. reflexivity.
    + exists n. rewrite IH. reflexivity.
Qed.

(** What [rstrip] leaves does not end in a stripped character. *)
Lemma rstrip_no_trailing chars s t c :
  char_in c chars = true -> rstrip chars s <> t +:+ String c "".
Proof.
  intros Hc. revert t.
  induction s as [|a rest IH]; intros t; cbn [rstrip].
  - destruct t; discriminate.
  - destruct (rstrip chars rest) as [|a' kept] eqn:E.
    + destruct (char_in a chars) eqn:Ha.
      * destruct t; discriminate.
      * destruct t as [|b t]; simpl.
        -- intros [= ->]. congruence.
        -- destruct t; discriminate.
    + destruct t as [|b t]; simpl.
      * discriminate.
      * intros [= -> Hkept]. apply (IH t). exact Hkept.
Qed.

(* ------------------------------------------------------------------ *)
(** ** The configuration is a frame of every call *)

Lemma call_configuration str_of self c :
  api_key (fst (call str_of self c)) = api_key self
  /\ base_url (fst (call str_of self c)) = base_url self
  /\ requests.headers (session (fst (call str_of self c)))
     = requests.headers (session self)
  /\ requests.adapter (session (fst (call str_of self c)))
     = requests.adapter (session self).
Proof.
  destruct (call_cases str_of c) as [(m & p & d & q & E) | (ps & _ & _ & E)];
    rewrite E; [rewrite request_client|]; simpl; auto.
Qed.

Lemma run_configuration str_of calls : forall self,
  api_key (run str_of self calls) = api_key self
  /\ base_url (run str_of self calls) = base_url self
  /\ requests.headers (session (run str_of self calls))
     = requests.headers (session self)
  /\ requests.adapter (session (run str_of self calls))
     = requests.adapter (session self).
Proof.
  induction calls as [|c calls IH]; intros self; simpl.
  - auto.
  - destruct (IH (fst (call str_of self c))) as (Hk & Hb & Hh & Ha).
    destruct (call_configuration str_of self c) as (Hk' & Hb' & Hh' & Ha').
    rewrite Hk, Hb, Hh, Ha. auto.
Qed.

(** C6. A client built on base URL [b] keeps [b] without its trailing
    slashes: [b] is the kept part followed by slashes only, and the kept
    part does not end in a slash. Every request, after any earlier calls,
    goes to the kept part followed by the endpoint path. The default base
    URL is kept as it is, and base URL "https://x/api/" with path "/agents"
    gives "https://x/api/agents". *)
Theorem base_url_trailing_slash_stripped lib key b :
  base_url (MirraSDK.__init__ lib key (Some b)) = rstrip "/" b
  /\ (exists n, b = rstrip "/" b +:+ slashes n)
  /\ (forall t, rstrip "/" b <> t +:+ "/")
  /\ (forall str_of calls method path data params,
         exists req,
           trace (fst (MirraSDK._request
                         (run str_of (MirraSDK.__init__ lib key (Some b)) calls)
                         method path data params))
           = trace (run str_of (MirraSDK.__init__ lib key (Some b)) calls) ++ [req]
           /\ requests.req_url req = rstrip "/" b +:+ path)
  /\ base_url (MirraSDK.__init__ lib key None) = "https://api.fxn.world/api/sdk/v1"
  /\ (exists req,
         trace (fst (AgentService.list
                       (MirraSDK.__init__ lib key (Some "https://x/api/"))))
         = [req]
         /\ requests.req_method req = "GET"
         /\ requests.req_url req = "https://x/api/agents").
Proof.
  split; [reflexivity|].
  split; [apply rstrip_decompose|].
  split; [intros t; apply rstrip_no_trailing; reflexivity|].
  split.
  - intros str_of calls method path data params.
    eexists. split; [apply request_trace|].
    simpl.
    destruct (run_configuration str_of calls (MirraSDK.__init__ lib key (Some b)))
      as (_ & -> & _).
    reflexivity.
  - split; [reflexivity|].
    eexists. split; [reflexivity|]. split; reflexivity.
Qed.

(* ------------------------------------------------------------------ *)
(** ** Request shapes *)

(** C7. [scripts.invoke(params)] with ["scriptId"] the string [s] sends
    exactly one request: a POST to [/scripts/s/invoke] whose body is
    [{"payload": v}] for the ["payload"] [v] of [params], and
    [{"payload": None}] when [params] has no ["payload"]. *)
Theorem invoke_posts_payload str_of self params s :
  params !! "scriptId" = Some (PyStr s) ->
  trace (fst (ScriptService.invoke str_of self params))
  = trace self
    ++ [wire_request self "POST" ("/scripts/" +:+ s +:+ "/invoke")
          (PyDict {[ "payload" :=
                       match params !! "payload" with
                       | Some v => v
                       | None => PyNone
                       end ]})
          PyNone].
Proof.
  intros Hid. unfold ScriptService.invoke, py_getitem.
  rewrite Hid. rewrite request_trace. unfold dict_get.
  destruct (params !! "payload"); reflexivity.
Qed.

Lemma invoke_posts_payload_witness :
  trace (fst (ScriptService.invoke str_unused
                (client_with (respond 200 (Some (PyDict envelope_ok))))
                {[ "scriptId" := PyStr "s1";
                   "payload" := PyDict {[ "x" := PyInt 1 ]} ]}))
  = [ {| requests.req_method := "POST";
         requests.req_url := "https://api.fxn.world/api/sdk/v1/scripts/s1/invoke";
         requests.req_json := PyDict {[ "payload" := PyDict {[ "x" := PyInt 1 ]} ]};
         requests.req_params := PyNone;
         requests.req_headers :=
           [("Content-Type", "application/json"); ("X-API-Key", "key")] |} ].
Proof.
  refine (eq_trans
            (invoke_posts_payload str_unused
               (client_with (respond 200 (Some (PyDict envelope_ok))))
               {[ "scriptId" := PyStr "s1";
                  "payload" := PyDict {[ "x" := PyInt 1 ]} ]}
               "s1" _) _).
  - reflexivity.
  - vm_compute. reflexivity.
Defined.

(** [{**d, **items}] is [items] where it has a key, [d] elsewhere. *)
Lemma dict_update_union (d items : gmap string PyValue) :
  dict_update d items = items ∪ d.
Proof.
  unfold dict_update.
  apply (map_fold_weak_ind (fun r m => r = m ∪ d)).
  - rewrite (left_id_L ∅ (∪)). reflexivity.
  - intros k v m r _ ->. apply insert_union_l.
Qed.

(** C10. [memory.update(id, updates)] sends one POST to [/memory/update]
    whose body is [updates] merged over [{"id": id}]: the body's ["id"] is
    the ["id"] of [updates] when it has one and the argument [id] otherwise,
    and every other key is as in [updates]. *)
Theorem memory_update_body self id (updates : gmap string PyValue) :
  exists body : gmap string PyValue,
    trace (fst (MemoryService.update self id updates))
    = trace self ++ [wire_request self "POST" "/memory/update" (PyDict body) PyNone]
    /\ body = updates ∪ {[ "id" := PyStr id ]}
    /\ body !! "id"
       = Some (match updates !! "id" with Some v => v | None => PyStr id end)
    /\ (forall k, k <> "id" -> body !! k = updates !! k).
Proof.
  exists (dict_update {[ "id" := PyStr id ]} updates).
  split; [apply request_trace|].
  rewrite dict_update_union.
  split; [reflexivity|]. split.
  - rewrite lookup_union, lookup_singleton_eq.
    destruct (updates !! "id"); reflexivity.
  - intros k Hk. apply lookup_union_l.
    apply lookup_singleton_ne. congruence.
Qed.

(* ------------------------------------------------------------------ *)
(** ** No state is carried from call to call *)

(** C8. Let [self] be a client after any number of calls since its
    construction, and [other] any client with the same configuration (API
    key, base URL, headers), whatever its own history. A further call leaves
    the configuration of [self] as it was at construction. The call sends
    the very same requests from [other] as from [self], and when the network
    answers both alike the two calls have the same outcome: nothing a
    previous call produced is read. *)
Theorem facade_calls_keep_configuration lib key b str_of calls self c other :
  self = run str_of (MirraSDK.__init__ lib key b) calls ->
  api_key other = api_key self ->
  base_url other = base_url self ->
  requests.headers (session other) = requests.headers (session self) ->
  (api_key (fst (call str_of self c)) = key
   /\ base_url (fst (call str_of self c))
      = base_url (MirraSDK.__init__ lib key b)
   /\ requests.headers (session (fst (call str_of self c)))
      = requests.headers (session (MirraSDK.__init__ lib key b)))
  /\ exists attempts,
       trace (fst (call str_of self c)) = trace self ++ attempts
       /\ trace (fst (call str_of other c)) = trace other ++ attempts
       /\ ((forall req, answer_to other req = answer_to self req) ->
           snd (call str_of other c) = snd (call str_of self c)).
Proof.
  intros Hself Hkey Hbase Hheaders. split.
  - destruct (call_configuration str_of self c) as (-> & -> & -> & _).
    destruct (run_configuration str_of calls (MirraSDK.__init__ lib key b))
      as (Hk & Hb & Hh & _).
    rewrite Hself, Hk, Hb, Hh. auto.
  - destruct (call_cases str_of c) as [(m & p & d & q & E) | (ps & _ & _ & E)].
    + exists [wire_request self m p d q].
      assert (Hwire : wire_request other m p d q = wire_request self m p d q).
      { unfold wire_request. rewrite Hbase, Hheaders. reflexivity. }
      rewrite !E, !request_trace, !request_outcome, Hwire.
      split; [reflexivity|]. split; [reflexivity|].
      intros Hanswer. rewrite Hanswer. reflexivity.
    + exists []. rewrite !E. simpl. rewrite !app_nil_r. auto.
Qed.

Lemma facade_calls_keep_configuration_witness :
  api_key (fst (call str_unused
                  (run str_unused
                     (client_with (respond 200 (Some (PyDict envelope_ok))))
                     [agents_list; scripts_deploy "s1"])
                  (ai_chat chat_request)))
  = "key"
  /\ base_url (fst (call str_unused
                      (run str_unused
                         (client_with (respond 200 (Some (PyDict envelope_ok))))
                         [agents_list; scripts_deploy "s1"])
                      (ai_chat chat_request)))
     = "https://api.fxn.world/api/sdk/v1".
Proof.
  destruct (facade_calls_keep_configuration
              (mock (respond 200 (Some (PyDict envelope_ok)))) "key" None
              str_unused [agents_list; scripts_deploy "s1"]
              (run str_unused
                 (client_with (respond 200 (Some (PyDict envelope_ok))))
                 [agents_list; scripts_deploy "s1"])
              (ai_chat chat_request)
              (client_with (respond 200 (Some (PyDict envelope_ok))))
              eq_refl eq_refl eq_refl eq_refl)
    as ((Hk & Hb & _) & _).
  split; [exact Hk | exact Hb].
Defined.


(* ------------------------------------------------------------------ *)
(** ** Headers *)

Lemma headers_get_set_eq h k k' v :
  requests.lower k' = requests.lower k ->
  requests.headers_get (requests.headers_set h k v) k' = Some v.
Proof.
  intros Hk. induction h as [|[k0 v0] rest IH]; simpl.
  - rewrite Hk, String.eqb_refl. reflexivity.
  - destruct (String.eqb (requests.lower k0) (requests.lower k)) eqn:E; simpl.
    + rewrite Hk, String.eqb_refl. reflexivity.
    + rewrite Hk, E. exact IH.
Qed.

Lemma headers_get_set_ne h k k' v :
  requests.lower k' <> requests.lower k ->
  requests.headers_get (requests.headers_set h k v) k'
  = requests.headers_get h k'.
Proof.
  intros Hk. apply not_eq_sym in Hk.
  induction h as [|[k0 v0] rest IH]; simpl.
  - apply String.eqb_neq in Hk. rewrite Hk. reflexivity.
  - destruct (String.eqb (requests.lower k0) (requests.lower k)) eqn:E; simpl.
    + apply String.eqb_eq in E. rewrite E.
      apply String.eqb_neq in Hk. rewrite Hk. reflexivity.
    + rewrite IH. reflexivity.
Qed.

(** What a sequence of calls adds to the trace: at most one request per
    call, each with the client's headers and a URL under its base URL. *)
Lemma run_trace str_of calls : forall self,
  exists more,
    trace (run str_of self calls) = trace self ++ more
    /\ (length more <= length calls)%nat
    /\ Forall (fun req =>
                 requests.req_headers req = requests.headers (session self)
                 /\ exists path, requests.req_url req = base_url self +:+ path)
         more.
Proof.
  induction calls as [|c calls IH]; intros self; simpl.
  - exists []. rewrite app_nil_r. auto.
  - destruct (IH (fst (call str_of self c))) as (more & Htrace & Hlen & Hall).
    destruct (call_configuration str_of self c) as (_ & Hb & Hh & _).
    rewrite Hb, Hh in Hall.
    destruct (call_cases str_of c) as [(m & p & d & q & E) | (ps & _ & _ & E)].
    + exists (wire_request self m p d q :: more).
      rewrite Htrace, E, request_trace, <- app_assoc. simpl.
      split; [reflexivity|]. split; [lia|].
      constructor; [|exact Hall].
      split; [reflexivity|]. exists p. reflexivity.
    + exists more. rewrite Htrace, E. simpl.
      split; [reflexivity|]. split; [lia | exact Hall].
Qed.

(** Every request of a client, after any calls, carries the two headers
    [__init__] set, under any spelling of their names: the API key and the
    JSON content type. The other headers are the library's defaults. *)
Theorem every_request_carries_api_key lib key b str_of calls :
  Forall (fun req =>
            (forall k, requests.lower k = "x-api-key" ->
                       requests.headers_get (requests.req_headers req) k = Some key)
            /\ (forall k, requests.lower k = "content-type" ->
                          requests.headers_get (requests.req_headers req) k
                          = Some "application/json")
            /\ (forall k, requests.lower k <> "x-api-key" ->
                          requests.lower k <> "content-type" ->
                          requests.headers_get (requests.req_headers req) k
                          = requests.headers_get (requests.default_headers lib) k))
         (trace (run str_of (MirraSDK.__init__ lib key b) calls)).
Proof.
  destruct (run_trace str_of calls (MirraSDK.__init__ lib key b))
    as (more & -> & _ & Hall).
  simpl. eapply Forall_impl; [exact Hall|].
  intros req [-> _]. simpl. unfold requests.headers_update. simpl.
  split; [|split].
  - intros k Hk. apply headers_get_set_eq. rewrite Hk. reflexivity.
  - intros k Hk. rewrite headers_get_set_ne.
    + apply headers_get_set_eq. rewrite Hk. reflexivity.
    + rewrite Hk. discriminate.
  - intros k Hk1 Hk2. rewrite !headers_get_set_ne; auto.
Qed.

(* ------------------------------------------------------------------ *)
(** ** What the facades put on the wire *)

Ltac sent_request H :=
  unfold trace in H; simpl in H;
  apply app_inv_head in H; injection H as <-.

(** Whatever facade method sends a request: the method is GET, POST, PATCH
    or DELETE; a GET or DELETE has no body; the path starts with a slash
    and follows the client's base URL; and a query string goes out with the
    two marketplace methods only, as the filters given or as [{"q": query}]. *)
Theorem facade_request_discipline str_of self c req :
  trace (fst (call str_of self c)) = trace self ++ [req] ->
  (requests.req_method req = "GET" \/ requests.req_method req = "POST"
   \/ requests.req_method req = "PATCH" \/ requests.req_method req = "DELETE")
  /\ (requests.req_method req = "GET" \/ requests.req_method req = "DELETE" ->
      requests.req_json req = PyNone)
  /\ (exists rest, requests.req_url req = base_url self +:+ String "/" rest)
  /\ requests.req_params req
     = match c with
       | marketplace_browse filters => filters
       | marketplace_search query => PyDict {[ "q" := PyStr query ]}
       | _ => PyNone
       end.
Proof.
  intros H.
  destruct c;
    try (simpl in H; unfold ScriptService.invoke, py_getitem in H;
         destruct (params !! "scriptId");
         [|destruct (trace_grows_not _ _ _ H)]);
    sent_request H; simpl;
    (split; [auto|]);
    (split; [intros [?|?]; (discriminate || reflexivity)|]);
    (split; [eexists; reflexivity | reflexivity]).
Qed.

Lemma facade_request_discipline_witness :
  requests.req_method
    (wire_request (client_with (respond 200 None)) "DELETE" "/agents/a1"
       PyNone PyNone) = "DELETE"
  /\ requests.req_params
       (wire_request (client_with (respond 200 None)) "DELETE" "/agents/a1"
          PyNone PyNone) = PyNone.
Proof.
  destruct (facade_request_discipline str_unused
              (client_with (respond 200 None)) (agents_delete "a1")
              (wire_request (client_with (respond 200 None)) "DELETE"
                 "/agents/a1" PyNone PyNone)
              eq_refl)
    as (_ & _ & _ & Hparams).
  split; [reflexivity | exact Hparams].
Defined.

(* ------------------------------------------------------------------ *)
(** ** When a call returns *)

(** A call that sent a request returns a value exactly when the answer is a
    JSON object whose ["success"] is true in Python's sense, with a status
    below 400; the value is then the object's ["data"], or [None]. On a
    network failure, a body that is not JSON, a status of 400 or more, or a
    missing or false ["success"], nothing is returned. *)
Theorem facade_returns_iff str_of self c req v :
  trace (fst (call str_of self c)) = trace self ++ [req] ->
  snd (call str_of self c) = Return v
  <-> exists status body,
        answer_to self req = respond status (Some (PyDict body))
        /\ truthy (dict_get body "success" (PyBool false)) = true
        /\ status < 400
        /\ v = dict_get body "data" PyNone.
Proof.
  intros Hsent. transport_step Hsent. split.
  - destruct (answer_to self _) as [[status [result|]]|text]; simpl;
      try discriminate.
    destruct result as [| | | | | |body]; simpl; try discriminate.
    destruct (truthy (dict_get body "success" (PyBool false))) eqn:Hs; simpl.
    + destruct (Z.leb_spec 400 status) as [Hge|Hlt].
      * destruct (dict_get body "error" (PyDict ∅)); discriminate.
      * intros [= <-]. exists status, body. auto.
    + destruct (dict_get body "error" (PyDict ∅)); discriminate.
  - intros (status & body & -> & Hs & Hlt & ->). simpl.
    rewrite Hs. simpl.
    destruct (Z.leb_spec 400 status) as [Hge|_]; [lia | reflexivity].
Qed.

Lemma facade_returns_iff_witness :
  snd (call str_unused
         (client_with (respond 399 (Some (PyDict {[ "success" := PyInt 1 ]}))))
         resources_list)
  = Return PyNone.
Proof.
  apply (facade_returns_iff str_unused
           (client_with (respond 399 (Some (PyDict {[ "success" := PyInt 1 ]}))))
           resources_list
           (wire_request
              (client_with (respond 399 (Some (PyDict {[ "success" := PyInt 1 ]}))))
              "GET" "/resources" PyNone PyNone)
           PyNone eq_refl).
  exists 399, {[ "success" := PyInt 1 ]}.
  split; [reflexivity|]. split; [reflexivity|]. split; [lia | reflexivity].
Defined.

(** The failure branch with the envelope's ["error"] object [err], or with
    no ["error"] at all ([err] empty): the [MirraError] has the status of
    the response, the ["message"] of [err] whatever its type, JSON [null]
    included, and "Unknown error" only when [err] has no ["message"]; [code]
    and [details] are those of [err], [None] when missing. A status of 400
    or more gives this even when ["success"] is true. *)
Theorem api_failure_from_error_object str_of self c req status body err :
  trace (fst (call str_of self c)) = trace self ++ [req] ->
  answer_to self req = respond status (Some (PyDict body)) ->
  truthy (dict_get body "success" (PyBool false)) = false \/ 400 <= status ->
  body !! "error" = Some (PyDict err) \/ (body !! "error" = None /\ err = ∅) ->
  snd (call str_of self c)
  = Raise (MirraError
             (match err !! "message" with
              | Some m => m
              | None => PyStr "Unknown error"
              end)
             (match err !! "code" with Some x => x | None => PyNone end)
             (Some status)
             (match err !! "details" with Some x => x | None => PyNone end)).
Proof.
  intros Hsent Hanswer Hfail Herr.
  rewrite (facade_api_failure _ _ _ req status body err Hsent Hanswer Hfail).
  - unfold dict_get.
    destruct (err !! "message"), (err !! "code"), (err !! "details");
      reflexivity.
  - unfold dict_get. destruct Herr as [-> | [-> ->]]; reflexivity.
Qed.

Lemma api_failure_from_error_object_witness :
  snd (call str_unused
         (client_with (respond 403 (Some (PyDict envelope_forbidden))))
         templates_list)
  = Raise (MirraError PyNone (PyStr "FORBIDDEN") (Some 403) PyNone).
Proof.
  refine (eq_trans
            (api_failure_from_error_object str_unused
               (client_with (respond 403 (Some (PyDict envelope_forbidden))))
               templates_list
               (wire_request
                  (client_with (respond 403 (Some (PyDict envelope_forbidden))))
                  "GET" "/templates" PyNone PyNone)
               403 envelope_forbidden error_forbidden _ _ _ _) _).
  - reflexivity.
  - reflexivity.
  - right. lia.
  - left. reflexivity.
  - vm_compute. reflexivity.
Defined.

Lemma facade_raises_only_mirra_error_witness :
  only_mirra_error
    (snd (call str_unused (client_with (respond 404 None)) (scripts_get "s1"))).
Proof.
  apply (facade_raises_only_mirra_error str_unused
           (client_with (respond 404 None)) (scripts_get "s1")
           (wire_request (client_with (respond 404 None))
              "GET" "/scripts/s1" PyNone PyNone)).
  - reflexivity.
  - exact I.
Defined.

Lemma facade_missing_success_witness :
  snd (call str_unused
         (client_with (respond 200 (Some (PyDict envelope_data_only))))
         (ai_chat chat_request))
  = Raise (MirraError (PyStr "Unknown error") PyNone (Some 200) PyNone).
Proof.
  apply (proj2 (facade_missing_success str_unused
                  (client_with (respond 200 (Some (PyDict envelope_data_only))))
                  (ai_chat chat_request)
                  (wire_request
                     (client_with (respond 200 (Some (PyDict envelope_data_only))))
                     "POST" "/ai/chat" chat_request PyNone)
                  200 envelope_data_only eq_refl eq_refl eq_refl)).
  reflexivity.
Defined.

(* ------------------------------------------------------------------ *)
(** ** [scripts.invoke] *)

(** [invoke] reads two keys of its argument and nothing else: arguments
    that agree on ["scriptId"] and ["payload"] do the same. Without
    ["scriptId"] it raises [KeyError] and leaves the client as it was,
    nothing sent. The body it sends has the one key ["payload"]; the script
    id goes into the path only. *)
Theorem invoke_reads_two_keys str_of self (p1 p2 : gmap string PyValue) :
  p1 !! "scriptId" = p2 !! "scriptId" ->
  p1 !! "payload" = p2 !! "payload" ->
  ScriptService.invoke str_of self p1 = ScriptService.invoke str_of self p2
  /\ (p1 !! "scriptId" = None ->
      ScriptService.invoke str_of self p1 = (self, Raise (KeyError "scriptId")))
  /\ (forall req,
         trace (fst (ScriptService.invoke str_of self p1)) = trace self ++ [req] ->
         exists payload,
           requests.req_json req = PyDict {[ "payload" := payload ]}
           /\ requests.req_method req = "POST").
Proof.
  intros Hid Hpayload.
  unfold ScriptService.invoke, py_getitem, dict_get.
  rewrite <- Hid, <- Hpayload.
  split; [reflexivity|]. split.
  - intros ->. reflexivity.
  - intros req H. destruct (p1 !! "scriptId").
    + sent_request H. simpl. eexists. split; reflexivity.
    + destruct (trace_grows_not _ _ _ H).
Qed.

Lemma invoke_reads_two_keys_witness :
  ScriptService.invoke str_unused (client_with (respond 200 None))
    {[ "payload" := PyInt 1; "verbose" := PyBool true ]}
  = (client_with (respond 200 None), Raise (KeyError "scriptId")).
Proof.
  destruct (invoke_reads_two_keys str_unused
              (client_with (respond 200 None))
              {[ "payload" := PyInt 1; "verbose" := PyBool true ]}
              {[ "payload" := PyInt 1 ]})
    as (_ & Hmissing & _).
  - vm_compute. reflexivity.
  - vm_compute. reflexivity.
  - apply Hmissing. vm_compute. reflexivity.
Defined.

(* ------------------------------------------------------------------ *)
(** ** Strings *)

Lemma append_nil_r s : s +:+ "" = s.
Proof. induction s as [|c s IH]; [reflexivity|]. change (String c (s +:+ "") = String c s). rewrite IH. reflexivity. Qed.

Lemma append_assoc s t u : (s +:+ t) +:+ u = s +:+ (t +:+ u).
Proof.
  induction s as [|c s IH]; [reflexivity|].
  change (String c ((s +:+ t) +:+ u) = String c (s +:+ (t +:+ u))).
  rewrite IH. reflexivity.
Qed.

Lemma append_length s t :
  String.length (s +:+ t) = (String.length s + String.length t)%nat.
Proof.
  induction s as [|c s IH]; [reflexivity|].
  change (S (String.length (s +:+ t)) = S (String.length s + String.length t)).
  rewrite IH. reflexivity.
Qed.

Lemma append_inj_r s x y : x +:+ s = y +:+ s -> x = y.
Proof.
  revert y. induction x as [|c x IH]; intros [|d y] H.
  - reflexivity.
  - apply (f_equal String.length) in H.
    change (String.length s = S (String.length (y +:+ s))) in H.
    rewrite append_length in H. lia.
  - apply (f_equal String.length) in H.
    change (S (String.length (x +:+ s)) = String.length s) in H.
    rewrite append_length in H. lia.
  - change (String c (x +:+ s) = String d (y +:+ s)) in H.
    injection H as -> H. rewrite (IH y H). reflexivity.
Qed.

Lemma slashes_snoc n : slashes (S n) = slashes n +:+ "/".
Proof.
  induction n as [|n IH]; [reflexivity|].
  change (String "/" (slashes (S n)) = String "/" (slashes n +:+ "/")).
  rewrite IH. reflexivity.
Qed.

Lemma rstrip_slashes n : rstrip "/" (slashes n) = "".
Proof.
  induction n as [|n IH]; [reflexivity|].
  cbn [slashes rstrip]. rewrite IH. reflexivity.
Qed.

Lemma rstrip_app_slashes b n : rstrip "/" (b +:+ slashes n) = rstrip "/" b.
Proof.
  induction b as [|c b IH]; [apply rstrip_slashes|].
  change (String c b +:+ slashes n) with (String c (b +:+ slashes n)).
  cbn [rstrip]. rewrite IH. reflexivity.
Qed.

(** The base URL a client keeps does not depend on how many slashes end the
    one it is given, so building a client on a kept base URL changes
    nothing; a base URL of slashes only is kept as the empty string; and
    one that does not end in a slash is kept whole. *)
Theorem base_url_ignores_trailing_slashes lib key b n :
  base_url (MirraSDK.__init__ lib key (Some (b +:+ slashes n)))
  = base_url (MirraSDK.__init__ lib key (Some b))
  /\ base_url (MirraSDK.__init__ lib key
                 (Some (base_url (MirraSDK.__init__ lib key (Some b)))))
     = base_url (MirraSDK.__init__ lib key (Some b))
  /\ base_url (MirraSDK.__init__ lib key (Some (slashes n))) = ""
  /\ ((forall t, b <> t +:+ "/") ->
      base_url (MirraSDK.__init__ lib key (Some b)) = b).
Proof.
  simpl. split; [apply rstrip_app_slashes|].
  split; [|split; [apply rstrip_slashes|]].
  - destruct (rstrip_decompose b) as [m Hm].
    rewrite Hm at 2. rewrite rstrip_app_slashes. reflexivity.
  - intros Hend. destruct (rstrip_decompose b) as [[|m] Hm].
    + simpl in Hm. rewrite append_nil_r in Hm. symmetry. exact Hm.
    + rewrite slashes_snoc, <- append_assoc in Hm.
      destruct (Hend _ Hm).
Qed.

(* ------------------------------------------------------------------ *)
(** ** The history of a client *)

Lemma run_trace_exact str_of calls : forall self,
  Forall (fun c => forall ps, c = scripts_invoke ps -> ps !! "scriptId" <> None)
    calls ->
  length (trace (run str_of self calls))
  = (length (trace self) + length calls)%nat.
Proof.
  induction calls as [|c calls IH]; intros self Hok; simpl.
  - lia.
  - apply Forall_cons in Hok as [Hc Hok].
    rewrite (IH _ Hok).
    destruct (call_cases str_of c) as [(m & p & d & q & E) | (ps & -> & Hnone & _)].
    + rewrite E, request_trace, length_app. simpl. lia.
    + destruct (Hc ps eq_refl Hnone).
Qed.

(** Calls only ever add to the end of the list of requests a client has
    sent: after any sequence of calls the earlier requests are still there,
    in place, followed by at most one request per call, and by exactly one
    per call when no [invoke] among them lacks its ["scriptId"]. *)
Theorem history_is_append_only str_of self calls :
  exists more,
    trace (run str_of self calls) = trace self ++ more
    /\ (length more <= length calls)%nat
    /\ (Forall (fun c => forall ps, c = scripts_invoke ps ->
                                    ps !! "scriptId" <> None) calls ->
        length more = length calls).
Proof.
  destruct (run_trace str_of calls self) as (more & Htrace & Hlen & _).
  exists more. split; [exact Htrace|]. split; [exact Hlen|].
  intros Hok. pose proof (run_trace_exact str_of calls self Hok) as Hexact.
  rewrite Htrace, length_app in Hexact. lia.
Qed.

(* ------------------------------------------------------------------ *)
(** ** Ids in paths *)

(** An id goes into the path as it is, so two ids that give the same URL
    are the same id: for the paths that end in the id ([agents.get]) and
    for those that go on after it ([scripts.deploy], [templates.install]). *)
Theorem id_paths_injective self id1 id2 :
  (trace (fst (AgentService.get self id1)) = trace (fst (AgentService.get self id2)) ->
   id1 = id2)
  /\ (trace (fst (ScriptService.deploy self id1))
      = trace (fst (ScriptService.deploy self id2)) ->
      id1 = id2)
  /\ (trace (fst (TemplateService.install self id1))
      = trace (fst (TemplateService.install self id2)) ->
      id1 = id2).
Proof.
  split; [|split]; intros H;
    unfold AgentService.get, ScriptService.deploy, TemplateService.install in H;
    rewrite !request_trace in H; apply app_inv_head in H;
    unfold wire_request in H; injection H as H.
  - apply (inj (String.append (base_url self))) in H.
    apply (inj (String.append "/agents/")) in H. exact H.
  - apply (inj (String.append (base_url self))) in H.
    apply (inj (String.append "/scripts/")) in H.
    apply append_inj_r in H. exact H.
  - apply (inj (String.append (base_url self))) in H.
    apply (inj (String.append "/templates/")) in H.
    apply append_inj_r in H. exact H.
Qed.

(* ------------------------------------------------------------------ *)
(** ** The facades add nothing to the transport's result *)

(** What a call returns or raises depends on the answer to its request
    alone: two calls of any two facade methods, on any two clients, whose
    requests get the same answer, end the same way. *)
Theorem facades_do_not_postprocess str_of self1 self2 c1 c2 req1 req2 :
  trace (fst (call str_of self1 c1)) = trace self1 ++ [req1] ->
  trace (fst (call str_of self2 c2)) = trace self2 ++ [req2] ->
  answer_to self1 req1 = answer_to self2 req2 ->
  snd (call str_of self1 c1) = snd (call str_of self2 c2).
Proof.
  intros H1 H2 Hanswer.
  transport_step H1. transport_step H2.
  rewrite Hanswer. reflexivity.
Qed.

Lemma facades_do_not_postprocess_witness :
  snd (call str_unused
         (client_with (respond 200 (Some (PyDict envelope_ok))))
         (ai_chat chat_request))
  = snd (call str_unused
           (run str_unused
              (client_with (respond 200 (Some (PyDict envelope_ok))))
              [agents_list])
           (scripts_deploy "s1")).
Proof.
  apply (facades_do_not_postprocess str_unused
           (client_with (respond 200 (Some (PyDict envelope_ok))))
           (run str_unused
              (client_with (respond 200 (Some (PyDict envelope_ok))))
              [agents_list])
           (ai_chat chat_request) (scripts_deploy "s1")
           (wire_request
              (client_with (respond 200 (Some (PyDict envelope_ok))))
              "POST" "/ai/chat" chat_request PyNone)
           (wire_request
              (run str_unused
                 (client_with (respond 200 (Some (PyDict envelope_ok))))
                 [agents_list])
              "POST" "/scripts/s1/deploy" PyNone PyNone)).
  - reflexivity.
  - reflexivity.
  - reflexivity.
Defined.
